(** * The sales dashboard of [dashboard_app.py]: filtering and aggregation

    The script loads a literal CSV table, filters it by region, category and
    date, and shows three KPIs and four group-by-sum charts.  This file
    embeds the data path of the script (lines 13-46 and 86-191) and proves
    the properties of the filter and of the aggregations.

    Conventions.
    - A [DataFrame] is the list of its rows, in index order.
    - The [Sales] and [Units] columns are int64 columns: a cell is a [Z] and
      [Series.sum] wraps around at 64 bits ([wrap64]).
    - [x / y] on two int64 sums is numpy's true division; its result is a
      float, modelled by [npfloat]: an exact quotient when the divisor is
      not zero (rounding to binary64 is left out), [inf], [-inf] or [nan]
      otherwise.
    - Python objects live in a store ([Heap]); a variable holds a reference,
      so that [filtered_df = df] is an alias and [df[mask]] a new object. *)

From Stdlib Require Import ZArith QArith List String Ascii Bool Lia.
From Stdlib Require Import OrderedTypeEx Sorted Permutation.
Import ListNotations.

Local Open Scope Z_scope.

(** ** Dates *)

Record date : Set := mkdate { year : Z; month : Z; day : Z }.

(** [datetime.date] objects compare by (year, month, day). *)
Definition date_compare (a b : date) : comparison :=
  match year a ?= year b with
  | Eq => match month a ?= month b with
          | Eq => day a ?= day b
          | c => c
          end
  | c => c
  end.

(** [a <= b] on dates. *)
Definition date_leb (a b : date) : bool :=
  match date_compare a b with
  | Gt => false
  | _ => true
  end.

Definition is_leap (y : Z) : bool :=
  ((y mod 4 =? 0) && negb (y mod 100 =? 0)) || (y mod 400 =? 0).

Definition days_in_month (y m : Z) : Z :=
  if m =? 2 then (if is_leap y then 29 else 28)
  else if (m =? 4) || (m =? 6) || (m =? 9) || (m =? 11) then 30
  else 31.

Definition valid_date (d : date) : bool :=
  (1 <=? year d) && (year d <=? 9999) &&
  (1 <=? month d) && (month d <=? 12) &&
  (1 <=? day d) && (day d <=? days_in_month (year d) (month d)).

(** ** Rows and frames *)

Record Row : Set := mkRow {
  Date : date;
  Region : string;
  Category : string;
  Product : string;
  Sales : Z;
  Units : Z
}.

Definition DataFrame : Set := list Row.

Inductive Column : Set :=
  ColDate | ColRegion | ColCategory | ColProduct | ColSales | ColUnits.

(** [df.columns.tolist()] *)
Definition columns : list Column :=
  [ColDate; ColRegion; ColCategory; ColProduct; ColSales; ColUnits].

Definition column_name (c : Column) : string :=
  match c with
  | ColDate => "Date"
  | ColRegion => "Region"
  | ColCategory => "Category"
  | ColProduct => "Product"
  | ColSales => "Sales"
  | ColUnits => "Units"
  end.

(** The value of one cell: a string, a date or an int64. *)
Inductive Cell : Set :=
| CStr (s : string)
| CDate (d : date)
| CInt (n : Z).

Definition cell (c : Column) (r : Row) : Cell :=
  match c with
  | ColDate => CDate (Date r)
  | ColRegion => CStr (Region r)
  | ColCategory => CStr (Category r)
  | ColProduct => CStr (Product r)
  | ColSales => CInt (Sales r)
  | ColUnits => CInt (Units r)
  end.

(** ** Reading the literal table ([load_data], lines 13-44) *)

Module Csv.

Definition newline : ascii := "010"%char.

(** [s.split(sep)] for a one-character separator. *)
Fixpoint split_on (sep : ascii) (s : string) : list string :=
  match s with
  | EmptyString => [EmptyString]
  | String c s' =>
      if Ascii.eqb c sep then EmptyString :: split_on sep s'
      else match split_on sep s' with
           | [] => [String c EmptyString]
           | w :: ws => String c w :: ws
           end
  end.

Definition digit_of (c : ascii) : option Z :=
  let n := Z.of_N (N_of_ascii c) in
  if (48 <=? n) && (n <=? 57) then Some (n - 48) else None.

Fixpoint parse_digits (acc : Z) (s : string) : option Z :=
  match s with
  | EmptyString => Some acc
  | String c s' =>
      match digit_of c with
      | Some d => parse_digits (10 * acc + d) s'
      | None => None
      end
  end.

Definition parse_nat (s : string) : option Z :=
  match s with
  | EmptyString => None
  | _ => parse_digits 0 s
  end.

Definition in_int64 (z : Z) : bool :=
  (- 2 ^ 63 <=? z) && (z <? 2 ^ 63).

(** An integer cell of an int64 column. *)
Definition parse_int64 (s : string) : option Z :=
  let v := match s with
           | String "-"%char s' => option_map Z.opp (parse_nat s')
           | _ => parse_nat s
           end in
  match v with
  | Some z => if in_int64 z then Some z else None
  | None => None
  end.

(** [pd.to_datetime] on a [YYYY-MM-DD] cell. *)
Definition parse_date (s : string) : option date :=
  match split_on "-"%char s with
  | [y; m; d] =>
      match parse_nat y, parse_nat m, parse_nat d with
      | Some y', Some m', Some d' =>
          let dt := mkdate y' m' d' in
          if valid_date dt then Some dt else None
      | _, _, _ => None
      end
  | _ => None
  end.

Definition parse_row (line : string) : option Row :=
  match split_on ","%char line with
  | [d; r; c; p; s; u] =>
      match parse_date d, parse_int64 s, parse_int64 u with
      | Some d', Some s', Some u' => Some (mkRow d' r c p s' u')
      | _, _, _ => None
      end
  | _ => None
  end.

Fixpoint parse_rows (lines : list string) : option DataFrame :=
  match lines with
  | [] => Some []
  | l :: ls =>
      match parse_row l, parse_rows ls with
      | Some r, Some rs => Some (r :: rs)
      | _, _ => None
      end
  end.

Definition nonblank (s : string) : bool :=
  match s with
  | EmptyString => false
  | _ => true
  end.

(** [pd.read_csv] followed by the conversion of the [Date] column: blank
    lines are skipped, the first line left is the header, and [None] stands
    for the parse error. *)
Definition read_csv (text : string) : option DataFrame :=
  match filter nonblank (split_on newline text) with
  | [] => None
  | header :: body =>
      if list_eq_dec string_dec (split_on ","%char header) (map column_name columns)
      then parse_rows body
      else None
  end.

End Csv.

Definition data_csv : string := "
Date,Region,Category,Product,Sales,Units
2023-01-01,East,Electronics,Laptop,1200,1
2023-01-01,West,Clothing,T-Shirt,25,2
2023-01-02,East,Food,Milk,5,1
2023-01-02,Central,Electronics,Mouse,30,1
2023-01-03,West,Electronics,Keyboard,75,1
2023-01-03,East,Clothing,Jeans,60,1
2023-01-04,Central,Food,Bread,3,1
2023-01-04,East,Electronics,Monitor,300,1
2023-01-05,West,Food,Cheese,15,1
2023-01-05,Central,Clothing,Jacket,150,1
2023-01-06,East,Electronics,Laptop,1100,1
2023-01-06,West,Clothing,Socks,10,2
2023-01-07,Central,Food,Eggs,7,1
2023-01-07,East,Electronics,Webcam,40,1
2023-01-08,West,Electronics,Printer,200,1
2023-01-08,Central,Clothing,Dress,80,1
2023-01-09,East,Food,Yogurt,8,1
2023-01-09,West,Electronics,Headphones,90,1
2023-01-10,Central,Electronics,Speaker,60,1
2023-01-10,East,Clothing,Hat,20,1
".

Definition load_data : option DataFrame := Csv.read_csv data_csv.

(** [df = load_data()] (line 46): the parsed table. *)
Definition df : DataFrame :=
  Eval vm_compute in match load_data with Some d => d | None => [] end.


(** ** Column operations *)

(** [Series.isin(values)] on one cell. *)
Definition isin (v : string) (values : list string) : bool :=
  existsb (String.eqb v) values.

(** [Series.unique()]: the distinct values, in order of first appearance. *)
Fixpoint unique (l : list string) : list string :=
  match l with
  | [] => []
  | x :: t => x :: filter (fun y => negb (String.eqb y x)) (unique t)
  end.

(** The boolean mask of lines 90-93, at one row. *)
Definition mask (selected_regions selected_categories : list string)
    (start_date end_date : date) (r : Row) : bool :=
  isin (Region r) selected_regions
  && isin (Category r) selected_categories
  && date_leb start_date (Date r)
  && date_leb (Date r) end_date.

(** Two's complement reduction to 64 bits. *)
Definition wrap64 (z : Z) : Z := (z + 2 ^ 63) mod 2 ^ 64 - 2 ^ 63.

(** [Series.sum()] of an int64 column. *)
Definition sum_int64 (l : list Z) : Z :=
  fold_left (fun acc x => wrap64 (acc + x)) l 0.

(** [frame['Sales'].sum()] and [frame['Units'].sum()] *)
Definition sales_sum (view : DataFrame) : Z := sum_int64 (map Sales view).
Definition units_sum (view : DataFrame) : Z := sum_int64 (map Units view).

(** The float that numpy's true division returns. *)
Inductive npfloat : Set :=
| Finite (q : Q)
| PosInf
| NegInf
| NaN.

(** [x / y] for two [numpy.int64]: a zero divisor is no exception, it gives
    [nan] for [0 / 0] and a signed infinity otherwise. *)
Definition true_divide (x y : Z) : npfloat :=
  if y =? 0 then
    if x =? 0 then NaN else if 0 <? x then PosInf else NegInf
  else Finite (Qred (inject_Z x / inject_Z y)).

(** ** Group by and sum *)

(** The order in which [groupby] sorts its keys.  Within one column all
    cells have the same shape; across shapes the order is fixed arbitrarily
    to keep the comparison total. *)
Definition cell_compare (a b : Cell) : comparison :=
  match a, b with
  | CStr x, CStr y => String.compare x y
  | CStr _, CDate _ => Lt
  | CStr _, CInt _ => Lt
  | CDate _, CStr _ => Gt
  | CDate x, CDate y => date_compare x y
  | CDate _, CInt _ => Lt
  | CInt _, CStr _ => Gt
  | CInt _, CDate _ => Gt
  | CInt x, CInt y => x ?= y
  end.

Definition Aggregation : Set := list (Cell * Z).

(** One row added to the bin of its key; the bins are kept sorted by key. *)
Fixpoint add_to_group (k : Cell) (s : Z) (groups : Aggregation) : Aggregation :=
  match groups with
  | [] => [(k, wrap64 (0 + s))]
  | (k', v) :: rest =>
      match cell_compare k k' with
      | Eq => (k', wrap64 (v + s)) :: rest
      | Lt => (k, wrap64 (0 + s)) :: groups
      | Gt => (k', v) :: add_to_group k s rest
      end
  end.

(** [view.groupby(key)['Sales'].sum().reset_index()]: one line per key
    present in [view], keys in ascending order. *)
Definition groupby_sum (key : Column) (view : DataFrame) : Aggregation :=
  fold_left (fun groups r => add_to_group (cell key r) (Sales r) groups) view [].

(** ** The store and the script monad *)

Inductive error : Set :=
| ValueError   (* a tuple unpacked into the wrong number of names *)
| Unbound.     (* a reference to no object; no run of the script gets there *)

Inductive result (A : Type) : Type :=
| Ok (a : A)
| Raise (e : error).
Arguments Ok {A} a.
Arguments Raise {A} e.

Definition ref : Set := nat.
Definition Heap : Set := list DataFrame.

Definition M (A : Type) : Type := Heap -> result (A * Heap).

Definition ret {A} (a : A) : M A := fun h => Ok (a, h).

Definition bind {A B} (m : M A) (f : A -> M B) : M B :=
  fun h => match m h with
           | Ok (a, h') => f a h'
           | Raise e => Raise e
           end.

Definition raise {A} (e : error) : M A := fun _ => Raise e.

(** A new frame object. *)
Definition new (d : DataFrame) : M ref :=
  fun h => Ok (List.length h, h ++ [d]).

(** The frame a reference points to. *)
Definition get (r : ref) : M DataFrame :=
  fun h => match nth_error h r with
           | Some d => Ok (d, h)
           | None => Raise Unbound
           end.

Declare Scope script_scope.
Delimit Scope script_scope with script.
Notation "x <- m ;; k" := (bind m (fun x => k))
  (at level 100, m at next level, right associativity) : script_scope.
Local Open Scope script_scope.

(** The value of the computation alone. *)
Definition value_of {A} (r : result (A * Heap)) : result A :=
  match r with
  | Ok (a, _) => Ok a
  | Raise e => Raise e
  end.

(** ** The filter (lines 86-96) *)

(** [if date_range:] on a tuple. *)
Definition truthy {A} (t : list A) : bool :=
  match t with
  | [] => false
  | _ :: _ => true
  end.

(** [start_date, end_date = date_range] *)
Definition unpack2 (t : list date) : M (date * date) :=
  match t with
  | [a; b] => ret (a, b)
  | _ => raise ValueError
  end.

(** [date_range] is what [st.sidebar.date_input] returned: a tuple of no,
    one or two dates.  The result is the reference bound to [filtered_df]. *)
Definition apply_filters (df : ref) (selected_regions selected_categories : list string)
    (date_range : list date) : M ref :=
  if truthy date_range then
    p <- unpack2 date_range ;;
    d <- get df ;;
    new (filter (mask selected_regions selected_categories (fst p) (snd p)) d)
  else
    ret df.

(** ** The page (lines 99-191) *)

Record Metrics : Set := mkMetrics {
  total_sales : Z;
  avg_sales_per_unit : npfloat;
  total_units : Z
}.

Inductive Page : Set :=
| Warning
| Dashboard (raw_data : DataFrame) (kpis : Metrics)
    (sales_by_category sales_by_region sales_trend sales_by_dimension : Aggregation).

(** [frame.empty] *)
Definition empty (view : DataFrame) : bool :=
  match view with
  | [] => true
  | _ :: _ => false
  end.

(** Lines 113-123. *)
Definition compute_kpis (view : DataFrame) : Metrics :=
  {| total_sales := sales_sum view;
     avg_sales_per_unit := true_divide (sales_sum view) (units_sum view);
     total_units := units_sum view |}.

(** The columns offered for the last chart (lines 172-174). *)
Definition x_axis_options : list Column :=
  filter (fun col => negb (existsb (String.eqb (column_name col)) ["Sales"; "Date"; "Units"]%string))
         columns.

Definition page (view : DataFrame) (selected_x_axis : Column) : Page :=
  if empty view then Warning
  else Dashboard view (compute_kpis view)
         (groupby_sum ColCategory view)
         (groupby_sum ColRegion view)
         (groupby_sum ColDate view)
         (groupby_sum selected_x_axis view).

(** One run of the script from line 86 on.  [selected_x_axis] is the value
    of the select box, one of [x_axis_options]; a column name is not empty,
    so the test of line 182 always passes. *)
Definition script (df : ref) (selected_regions selected_categories : list string)
    (date_range : list date) (selected_x_axis : Column) : M Page :=
  filtered_df <- apply_filters df selected_regions selected_categories date_range ;;
  view <- get filtered_df ;;
  ret (page view selected_x_axis).

(** The store after line 46: the dataset is its only object. *)
Definition df_ref : ref := 0%nat.
Definition startup (d : DataFrame) : Heap := [d].

(** The frame bound to [filtered_df] after line 96. *)
Definition filtered_df (d : DataFrame) (selected_regions selected_categories : list string)
    (date_range : list date) : result DataFrame :=
  value_of ((f <- apply_filters df_ref selected_regions selected_categories date_range ;;
             get f) (startup d)).

(** What one run shows. *)
Definition render (d : DataFrame) (selected_regions selected_categories : list string)
    (date_range : list date) (selected_x_axis : Column) : result Page :=
  value_of (script df_ref selected_regions selected_categories date_range selected_x_axis
              (startup d)).

(** The number handed to the second [st.metric], when there is one. *)
Definition displayed_avg (p : Page) : option npfloat :=
  match p with
  | Warning => None
  | Dashboard _ k _ _ _ _ => Some (avg_sales_per_unit k)
  end.

(** ** The filter criteria as one value *)

Record FilterSpec : Set := mkFilterSpec {
  regions : list string;
  categories : list string;
  dateStart : date;
  dateEnd : date
}.

(** The filter on the inputs that a [FilterSpec] stands for: the two
    selections and the two-date tuple. *)
Definition applyFilter (d : DataFrame) (spec : FilterSpec) : result DataFrame :=
  filtered_df d (regions spec) (categories spec) [dateStart spec; dateEnd spec].

(** The widget defaults (lines 63-84). *)
Definition all_regions (d : DataFrame) : list string := unique (map Region d).
Definition all_categories (d : DataFrame) : list string := unique (map Category d).

(** ** Vocabulary of the statements *)

(** [a <= b] on dates, spelled out on the three fields. *)
Definition date_le (a b : date) : Prop :=
  year a < year b \/
  (year a = year b /\
   (month a < month b \/ (month a = month b /\ day a <= day b))).

(** [a < b] on dates. *)
Definition date_lt (a b : date) : Prop :=
  year a < year b \/
  (year a = year b /\
   (month a < month b \/ (month a = month b /\ day a < day b))).

(** [l1] is [l2] with some elements left out: the order is kept. *)
Inductive Subseq {A : Type} : list A -> list A -> Prop :=
| Subseq_nil : Subseq [] []
| Subseq_skip x l1 l2 : Subseq l1 l2 -> Subseq l1 (x :: l2)
| Subseq_keep x l1 l2 : Subseq l1 l2 -> Subseq (x :: l1) (x :: l2).

(** The exact sum of a list of integers. *)
Definition Zsum (l : list Z) : Z := fold_right Z.add 0 l.

(** The values of an int64. *)
Definition in_range64 (z : Z) : Prop := - 2 ^ 63 <= z < 2 ^ 63.

(** Congruence modulo 2^64. *)
Definition eqm (a b : Z) : Prop := a mod 2 ^ 64 = b mod 2 ^ 64.

(** The strict order of the keys. *)
Definition cell_lt (a b : Cell) : Prop := cell_compare a b = Lt.

(** The value that the aggregation holds for a key. *)
Fixpoint lookup (k : Cell) (g : Aggregation) : option Z :=
  match g with
  | [] => None
  | (k', v) :: rest =>
      match cell_compare k k' with
      | Eq => Some v
      | _ => lookup k rest
      end
  end.

(** Two cells hold the same key. *)
Definition cell_eqb (a b : Cell) : bool :=
  match cell_compare a b with
  | Eq => true
  | _ => false
  end.

(** The rows of one group. *)
Definition group_rows (key : Column) (k : Cell) (view : DataFrame) : DataFrame :=
  filter (fun r => cell_eqb (cell key r) k) view.

(** ** The rest of the sidebar and of the last chart *)

Definition date_min (a b : date) : date := if date_leb a b then a else b.
Definition date_max (a b : date) : date := if date_leb a b then b else a.

(** [df['Date'].min().date()] (line 77); a frame without row has no
    earliest date ([NaT]). *)
Definition min_date (d : DataFrame) : option date :=
  match d with
  | [] => None
  | r :: rest => Some (fold_left (fun m r' => date_min m (Date r')) rest (Date r))
  end.

(** [df['Date'].max().date()] (line 78). *)
Definition max_date (d : DataFrame) : option date :=
  match d with
  | [] => None
  | r :: rest => Some (fold_left (fun m r' => date_max m (Date r')) rest (Date r))
  end.

(** [options.index(name)]: the first position of [name], [None] for the
    [ValueError] of a name that is not there. *)
Fixpoint index_of (name : string) (options : list Column) : option nat :=
  match options with
  | [] => None
  | c :: rest =>
      if String.eqb (column_name c) name then Some 0%nat
      else option_map S (index_of name rest)
  end.

(** The [index] argument of the select box (line 179). *)
Definition default_index (options : list Column) : nat :=
  if existsb (fun c => String.eqb (column_name c) "Product") options then
    match index_of "Product" options with
    | Some i => i
    | None => 0%nat
    end
  else 0%nat.

(** * Properties *)

(** ** The literal table *)

Lemma load_data_df : load_data = Some df.
Proof. vm_compute. reflexivity. Qed.

Lemma df_length : List.length df = 20%nat.
Proof. reflexivity. Qed.

(** The defaults of the two multiselects: every region, every category. *)
Lemma all_regions_df : all_regions df = ["East"; "West"; "Central"]%string.
Proof. reflexivity. Qed.

Lemma all_categories_df :
  all_categories df = ["Electronics"; "Clothing"; "Food"]%string.
Proof. reflexivity. Qed.

Lemma x_axis_options_eq : x_axis_options = [ColRegion; ColCategory; ColProduct].
Proof. reflexivity. Qed.

(** ** Dates and membership *)

Lemma date_leb_le (a b : date) : date_leb a b = true <-> date_le a b.
Proof.
  unfold date_leb, date_compare, date_le.
  destruct (Z.compare_spec (year a) (year b));
    destruct (Z.compare_spec (month a) (month b));
    destruct (Z.compare_spec (day a) (day b));
    split; intros; try discriminate; try lia; reflexivity.
Qed.

Lemma date_compare_eq (a b : date) : date_compare a b = Eq -> a = b.
Proof.
  destruct a as [ya ma da], b as [yb mb db]. unfold date_compare. simpl.
  destruct (Z.compare_spec ya yb); try discriminate.
  destruct (Z.compare_spec ma mb); try discriminate.
  destruct (Z.compare_spec da db); try discriminate.
  intros _. congruence.
Qed.

Lemma date_compare_lt (a b : date) : date_compare a b = Lt <-> date_lt a b.
Proof.
  unfold date_compare, date_lt.
  destruct (Z.compare_spec (year a) (year b));
    destruct (Z.compare_spec (month a) (month b));
    destruct (Z.compare_spec (day a) (day b));
    split; intros; try discriminate; try lia; reflexivity.
Qed.

Lemma date_compare_antisym (a b : date) :
  date_compare b a = CompOpp (date_compare a b).
Proof.
  unfold date_compare.
  rewrite (Z.compare_antisym (year a) (year b)),
          (Z.compare_antisym (month a) (month b)),
          (Z.compare_antisym (day a) (day b)).
  destruct (year a ?= year b); simpl; try reflexivity.
  destruct (month a ?= month b); simpl; reflexivity.
Qed.

Lemma isin_In (v : string) (values : list string) :
  isin v values = true <-> In v values.
Proof.
  unfold isin. rewrite existsb_exists. split.
  - intros [x [Hin Heq]]. apply String.eqb_eq in Heq. now subst.
  - intros Hin. exists v. split; [assumption | apply String.eqb_refl].
Qed.

Lemma mask_true (rs cs : list string) (s e : date) (r : Row) :
  mask rs cs s e r = true <->
  In (Region r) rs /\ In (Category r) cs /\ date_le s (Date r) /\ date_le (Date r) e.
Proof.
  unfold mask. rewrite !andb_true_iff, !isin_In, !date_leb_le. tauto.
Qed.

(** ** Subsequences *)

Lemma Subseq_refl {A} (l : list A) : Subseq l l.
Proof. induction l; constructor; assumption. Qed.

Lemma Subseq_filter {A} (f : A -> bool) (l : list A) : Subseq (filter f l) l.
Proof.
  induction l as [|x l IH]; simpl.
  - constructor.
  - destruct (f x); constructor; assumption.
Qed.

Lemma Subseq_In {A} (l1 l2 : list A) (x : A) : Subseq l1 l2 -> In x l1 -> In x l2.
Proof.
  induction 1 as [|y l1 l2 _ IH|y l1 l2 _ IH]; simpl; intuition.
Qed.

Lemma Subseq_length {A} (l1 l2 : list A) :
  Subseq l1 l2 -> (List.length l1 <= List.length l2)%nat.
Proof. induction 1; simpl; lia. Qed.

Lemma Subseq_Forall {A} (P : A -> Prop) (l1 l2 : list A) :
  Subseq l1 l2 -> Forall P l2 -> Forall P l1.
Proof.
  induction 1 as [|y l1 l2 _ IH|y l1 l2 _ IH]; intros HF.
  - constructor.
  - inversion HF; subst. auto.
  - inversion HF; subst. constructor; auto.
Qed.

(** ** Running the filter *)

Lemma nth_error_new {A} (h : list A) (v : A) :
  nth_error (h ++ [v]) (List.length h) = Some v.
Proof. rewrite nth_error_app2, Nat.sub_diag by lia. reflexivity. Qed.

Lemma nth_error_kept {A} (h : list A) (v x : A) (r : nat) :
  nth_error h r = Some x -> nth_error (h ++ [v]) r = Some x.
Proof.
  intros H. rewrite nth_error_app1; [assumption|].
  apply nth_error_Some. congruence.
Qed.

(** With both dates given, the filter allocates the masked frame. *)
Lemma apply_filters_range (h : Heap) (r : ref) (d : DataFrame)
    (rs cs : list string) (s e : date) :
  nth_error h r = Some d ->
  apply_filters r rs cs [s; e] h
  = Ok (List.length h, h ++ [filter (mask rs cs s e) d]).
Proof.
  intros H. unfold apply_filters, bind, unpack2, get, new, ret. simpl.
  rewrite H. reflexivity.
Qed.

(** With no date, [filtered_df] is the dataset object itself. *)
Lemma apply_filters_absent (h : Heap) (r : ref) (rs cs : list string) :
  apply_filters r rs cs [] h = Ok (r, h).
Proof. reflexivity. Qed.

Lemma filtered_df_range (d : DataFrame) (rs cs : list string) (s e : date) :
  filtered_df d rs cs [s; e] = Ok (filter (mask rs cs s e) d).
Proof. reflexivity. Qed.

Lemma filtered_df_absent (d : DataFrame) (rs cs : list string) :
  filtered_df d rs cs [] = Ok d.
Proof. reflexivity. Qed.

Lemma filtered_df_Subseq (d : DataFrame) (rs cs : list string) (dr : list date)
    (view : DataFrame) :
  filtered_df d rs cs dr = Ok view -> Subseq view d.
Proof.
  destruct dr as [|s [|e [|x dr]]]; intros H; try discriminate H.
  - rewrite filtered_df_absent in H. injection H as <-. apply Subseq_refl.
  - rewrite filtered_df_range in H. injection H as <-. apply Subseq_filter.
Qed.

Lemma render_page (d : DataFrame) (rs cs : list string) (dr : list date) (x : Column) :
  render d rs cs dr x
  = match filtered_df d rs cs dr with
    | Ok view => Ok (page view x)
    | Raise e => Raise e
    end.
Proof.
  destruct dr as [|s [|e [|y dr]]]; reflexivity.
Qed.

(** With no date the whole dataset is shown, whatever the selections. *)
Lemma absent_range_passes_all (d : DataFrame) (rs cs : list string) (x : Column) :
  render d rs cs [] x = Ok (page d x).
Proof. reflexivity. Qed.

(** Whatever the date range, a filter that returns leaves every object of
    the store as it was and returns a subsequence of the dataset. *)
Lemma apply_filters_store (h h' : Heap) (df r : ref) (d : DataFrame)
    (rs cs : list string) (dr : list date) :
  nth_error h df = Some d ->
  apply_filters df rs cs dr h = Ok (r, h') ->
  (forall r0 v, nth_error h r0 = Some v -> nth_error h' r0 = Some v) /\
  exists view, nth_error h' r = Some view /\ Subseq view d.
Proof.
  intros Hd H. destruct dr as [|s [|e [|y dr]]]; try discriminate H.
  - rewrite apply_filters_absent in H. injection H as <- <-.
    split; [auto|]. exists d. split; [assumption | apply Subseq_refl].
  - rewrite (apply_filters_range _ _ _ _ _ _ _ Hd) in H. injection H as <- <-.
    split; [intros r0 v; apply nth_error_kept|].
    eexists. split; [apply nth_error_new | apply Subseq_filter].
Qed.

(** C1: for every FilterSpec the filter returns a view; each record of the
    view is a record of the dataset, its Region is among the selected
    regions, its Category among the selected categories, and its Date lies
    between dateStart and dateEnd, both included. *)
Theorem filtered_view_sound (d : DataFrame) (spec : FilterSpec) :
  exists view,
    applyFilter d spec = Ok view /\
    forall r, In r view ->
      In r d /\
      In (Region r) (regions spec) /\
      In (Category r) (categories spec) /\
      date_le (dateStart spec) (Date r) /\
      date_le (Date r) (dateEnd spec).
Proof.
  exists (filter (mask (regions spec) (categories spec) (dateStart spec) (dateEnd spec)) d).
  split.
  - apply filtered_df_range.
  - intros r Hr. apply filter_In in Hr. destruct Hr as [Hd Hm].
    apply mask_true in Hm. tauto.
Qed.

(** The view misses no record that passes the three tests. *)
Lemma filtered_view_complete (d : DataFrame) (spec : FilterSpec) (r : Row) :
  In r d ->
  In (Region r) (regions spec) ->
  In (Category r) (categories spec) ->
  date_le (dateStart spec) (Date r) ->
  date_le (Date r) (dateEnd spec) ->
  exists view, applyFilter d spec = Ok view /\ In r view.
Proof.
  intros Hd H1 H2 H3 H4. eexists. split; [apply filtered_df_range|].
  apply filter_In. split; [assumption|]. apply mask_true. tauto.
Qed.

(** C3: a date range of one date only (the state of the range picker
    after its first click) is not empty, so the script unpacks it into two
    names and raises [ValueError]: the filter returns no view. *)
Theorem partial_range_raises (d : DataFrame) (rs cs : list string) (x : date)
    (selected_x_axis : Column) :
  filtered_df d rs cs [x] = Raise ValueError /\
  render d rs cs [x] selected_x_axis = Raise ValueError.
Proof. split; reflexivity. Qed.

(** C6: when no region is selected, or no category, the view is empty. *)
Theorem empty_selection_empty_view (d : DataFrame) (spec : FilterSpec) :
  regions spec = [] \/ categories spec = [] ->
  applyFilter d spec = Ok [].
Proof.
  intros H. unfold applyFilter. rewrite filtered_df_range. f_equal.
  induction d as [|r d IH]; [reflexivity|]. simpl. rewrite IH.
  unfold mask. destruct H as [-> | ->]; simpl.
  - reflexivity.
  - rewrite andb_false_r. reflexivity.
Qed.

Lemma empty_selection_empty_view_witness :
  applyFilter df (mkFilterSpec [] (all_categories df) (mkdate 2023 1 1) (mkdate 2023 1 10))
  = Ok [].
Proof.
  apply (empty_selection_empty_view df
           (mkFilterSpec [] (all_categories df) (mkdate 2023 1 1) (mkdate 2023 1 10))).
  left. reflexivity.
Defined.

(** C9: the filter returns the records of the dataset in their original
    order, as a new object; every object of the store, the dataset among
    them, is after the filter what it was before. *)
Theorem filter_keeps_order_and_dataset (h : Heap) (df : ref) (d : DataFrame)
    (spec : FilterSpec) :
  nth_error h df = Some d ->
  exists filtered_df h' view,
    apply_filters df (regions spec) (categories spec) [dateStart spec; dateEnd spec] h
      = Ok (filtered_df, h') /\
    nth_error h' filtered_df = Some view /\
    Subseq view d /\
    nth_error h' df = Some d /\
    forall r v, nth_error h r = Some v -> nth_error h' r = Some v.
Proof.
  intros H. do 3 eexists. split; [apply apply_filters_range, H|].
  split; [apply nth_error_new|].
  split; [apply Subseq_filter|].
  split; [apply nth_error_kept, H|].
  intros r v Hr. apply nth_error_kept, Hr.
Qed.

Lemma filter_keeps_order_and_dataset_witness :
  exists filtered_df h' view,
    apply_filters df_ref ["East"%string] ["Electronics"%string]
      [mkdate 2023 1 1; mkdate 2023 1 10] (startup df) = Ok (filtered_df, h') /\
    nth_error h' filtered_df = Some view /\
    Subseq view df /\
    nth_error h' df_ref = Some df /\
    forall r v, nth_error (startup df) r = Some v -> nth_error h' r = Some v.
Proof.
  apply (filter_keeps_order_and_dataset (startup df) df_ref df
           (mkFilterSpec ["East"%string] ["Electronics"%string]
              (mkdate 2023 1 1) (mkdate 2023 1 10))).
  reflexivity.
Defined.

(** ** The two scenarios on the literal table *)

(** C4: regions East, categories Electronics and the dates 2023-01-01 to
    2023-01-10 select, in the order of the table, the Laptop at 1200, the
    Monitor at 300, the Laptop at 1100 and the Webcam at 40, that is the
    four records Laptop(1200), Laptop(1100), Monitor(300), Webcam(40); on
    that view the total sales are 2640, the total units 4 and the average
    sales per unit 660. *)
Theorem scenario_east_electronics :
  exists view,
    applyFilter df (mkFilterSpec ["East"%string] ["Electronics"%string]
                      (mkdate 2023 1 1) (mkdate 2023 1 10)) = Ok view /\
    view = [ mkRow (mkdate 2023 1 1) "East" "Electronics" "Laptop" 1200 1;
             mkRow (mkdate 2023 1 4) "East" "Electronics" "Monitor" 300 1;
             mkRow (mkdate 2023 1 6) "East" "Electronics" "Laptop" 1100 1;
             mkRow (mkdate 2023 1 7) "East" "Electronics" "Webcam" 40 1 ] /\
    Permutation view
           [ mkRow (mkdate 2023 1 1) "East" "Electronics" "Laptop" 1200 1;
             mkRow (mkdate 2023 1 6) "East" "Electronics" "Laptop" 1100 1;
             mkRow (mkdate 2023 1 4) "East" "Electronics" "Monitor" 300 1;
             mkRow (mkdate 2023 1 7) "East" "Electronics" "Webcam" 40 1 ] /\
    compute_kpis view
    = {| total_sales := 2640;
         avg_sales_per_unit := Finite (660 # 1);
         total_units := 4 |}.
Proof.
  eexists. split; [vm_compute; reflexivity|].
  split; [reflexivity|].
  split; [apply perm_skip, perm_swap | vm_compute; reflexivity].
Qed.

(** C8: with every region and every category selected, the range from
    2023-01-03 to 2023-01-03 returns the Keyboard and the Jeans records and
    nothing else. *)
Theorem scenario_single_day :
  applyFilter df (mkFilterSpec (all_regions df) (all_categories df)
                    (mkdate 2023 1 3) (mkdate 2023 1 3))
  = Ok [ mkRow (mkdate 2023 1 3) "West" "Electronics" "Keyboard" 75 1;
         mkRow (mkdate 2023 1 3) "East" "Clothing" "Jeans" 60 1 ].
Proof. vm_compute. reflexivity. Qed.

(** ** 64-bit sums *)

(** Bounds between numerals and powers of two. *)
Ltac range64 := unfold in_range64 in *; lia.

Lemma eqm_refl a : eqm a a.
Proof. reflexivity. Qed.

Lemma eqm_sym a b : eqm a b -> eqm b a.
Proof. unfold eqm. congruence. Qed.

Lemma eqm_trans a b c : eqm a b -> eqm b c -> eqm a c.
Proof. unfold eqm. congruence. Qed.

Lemma eqm_add a a' b b' : eqm a a' -> eqm b b' -> eqm (a + b) (a' + b').
Proof.
  unfold eqm. intros Ha Hb.
  rewrite (Z.add_mod a b), (Z.add_mod a' b'), Ha, Hb by lia. reflexivity.
Qed.

Lemma wrap64_eqm z : eqm (wrap64 z) z.
Proof.
  unfold eqm, wrap64. rewrite Zminus_mod_idemp_l. f_equal. lia.
Qed.

Lemma wrap64_range z : in_range64 (wrap64 z).
Proof.
  unfold in_range64, wrap64.
  pose proof (Z.mod_pos_bound (z + 2 ^ 63) (2 ^ 64) ltac:(lia)). lia.
Qed.

Lemma eqm_in_range a b : eqm a b -> in_range64 a -> in_range64 b -> a = b.
Proof.
  unfold eqm, in_range64. intros H Ha Hb.
  assert (E : (a + 2 ^ 63) mod 2 ^ 64 = (b + 2 ^ 63) mod 2 ^ 64).
  { rewrite (Z.add_mod a), (Z.add_mod b), H by lia. reflexivity. }
  rewrite !Z.mod_small in E by lia. lia.
Qed.

Lemma wrap64_small z : in_range64 z -> wrap64 z = z.
Proof.
  intros H. apply eqm_in_range; [apply wrap64_eqm | apply wrap64_range | assumption].
Qed.

Lemma fold_wrap_eqm (l : list Z) (acc : Z) :
  eqm (fold_left (fun a x => wrap64 (a + x)) l acc) (acc + Zsum l).
Proof.
  revert acc. induction l as [|x l IH]; intros acc; simpl.
  - unfold eqm. f_equal. lia.
  - eapply eqm_trans; [apply IH|].
    replace (acc + (x + Zsum l)) with ((acc + x) + Zsum l) by lia.
    apply eqm_add; [apply wrap64_eqm | apply eqm_refl].
Qed.

Lemma fold_wrap_range (l : list Z) (acc : Z) :
  in_range64 acc -> in_range64 (fold_left (fun a x => wrap64 (a + x)) l acc).
Proof.
  revert acc. induction l as [|x l IH]; intros acc H; simpl.
  - assumption.
  - apply IH, wrap64_range.
Qed.

Lemma sum_int64_eqm (l : list Z) : eqm (sum_int64 l) (Zsum l).
Proof. apply (fold_wrap_eqm l 0). Qed.

Lemma sum_int64_range (l : list Z) : in_range64 (sum_int64 l).
Proof. apply fold_wrap_range. range64. Qed.

(** The 64-bit sum is the exact sum reduced to 64 bits. *)
Lemma sum_int64_wrap (l : list Z) : sum_int64 l = wrap64 (Zsum l).
Proof.
  apply eqm_in_range.
  - eapply eqm_trans; [apply sum_int64_eqm | apply eqm_sym, wrap64_eqm].
  - apply sum_int64_range.
  - apply wrap64_range.
Qed.

(** Without overflow it is the exact sum. *)
Lemma sum_int64_exact (l : list Z) : in_range64 (Zsum l) -> sum_int64 l = Zsum l.
Proof. intros H. rewrite sum_int64_wrap. apply wrap64_small, H. Qed.

Lemma sum_int64_snoc (l : list Z) (x : Z) :
  sum_int64 (l ++ [x]) = wrap64 (sum_int64 l + x).
Proof. unfold sum_int64. rewrite fold_left_app. reflexivity. Qed.

(** ** The order on keys *)

Lemma cell_compare_eq (a b : Cell) : cell_compare a b = Eq -> a = b.
Proof.
  destruct a, b; simpl; try discriminate; intros H; f_equal.
  - now apply String.compare_eq_iff.
  - now apply date_compare_eq.
  - now apply Z.compare_eq.
Qed.

Lemma cell_compare_antisym (a b : Cell) :
  cell_compare b a = CompOpp (cell_compare a b).
Proof.
  destruct a, b; simpl; try reflexivity.
  - apply String.compare_antisym.
  - apply date_compare_antisym.
  - apply Z.compare_antisym.
Qed.

Lemma cell_compare_refl (a : Cell) : cell_compare a a = Eq.
Proof.
  pose proof (cell_compare_antisym a a) as H.
  destruct (cell_compare a a); simpl in H; congruence.
Qed.

Lemma cell_lt_irrefl (a : Cell) : ~ cell_lt a a.
Proof. unfold cell_lt. rewrite cell_compare_refl. discriminate. Qed.

Lemma cell_lt_trans (a b c : Cell) : cell_lt a b -> cell_lt b c -> cell_lt a c.
Proof.
  unfold cell_lt. destruct a, b, c; simpl; try discriminate; try reflexivity.
  - intros H1 H2. apply String_as_OT.cmp_lt.
    apply String_as_OT.cmp_lt in H1. apply String_as_OT.cmp_lt in H2.
    eapply String_as_OT.lt_trans; eassumption.
  - rewrite !date_compare_lt. unfold date_lt. lia.
  - rewrite !Z.compare_lt_iff. lia.
Qed.

Lemma cell_compare_gt (a b : Cell) : cell_compare a b = Gt -> cell_lt b a.
Proof.
  unfold cell_lt. intros H. rewrite cell_compare_antisym, H. reflexivity.
Qed.

Lemma sorted_keys_NoDup (l : list Cell) : StronglySorted cell_lt l -> NoDup l.
Proof.
  induction 1 as [|a l _ IH Hall]; constructor; [|assumption].
  intros Hin. rewrite Forall_forall in Hall.
  exact (cell_lt_irrefl a (Hall a Hin)).
Qed.

(** ** One row into the bins *)

Lemma add_to_group_keys (k : Cell) (s : Z) (g : Aggregation) (k' : Cell) :
  In k' (map fst (add_to_group k s g)) <-> k' = k \/ In k' (map fst g).
Proof.
  induction g as [|[k0 v] g IH]; simpl.
  - intuition.
  - destruct (cell_compare k k0) eqn:E; simpl.
    + apply cell_compare_eq in E. subst. intuition.
    + intuition.
    + rewrite IH. intuition.
Qed.

Lemma add_to_group_sorted (k : Cell) (s : Z) (g : Aggregation) :
  StronglySorted cell_lt (map fst g) ->
  StronglySorted cell_lt (map fst (add_to_group k s g)).
Proof.
  induction g as [|[k0 v] g IH]; simpl; intros H.
  - repeat constructor.
  - inversion H as [|? ? Hs Hall]; subst.
    destruct (cell_compare k k0) eqn:E; simpl.
    + constructor; assumption.
    + constructor; [exact H|]. constructor; [exact E|].
      eapply Forall_impl; [|exact Hall].
      intros c Hc. eapply cell_lt_trans; eassumption.
    + constructor; [apply IH, Hs|].
      apply Forall_forall. intros c Hc.
      apply add_to_group_keys in Hc. destruct Hc as [-> | Hc].
      * apply cell_compare_gt, E.
      * rewrite Forall_forall in Hall. apply Hall, Hc.
Qed.

Lemma add_to_group_total (k : Cell) (s : Z) (g : Aggregation) :
  eqm (Zsum (map snd (add_to_group k s g))) (Zsum (map snd g) + s).
Proof.
  induction g as [|[k0 v] g IH]; simpl.
  - replace (0 + s) with (s + 0) at 2 by lia.
    apply eqm_add; [apply wrap64_eqm | apply eqm_refl].
  - destruct (cell_compare k k0); simpl.
    + replace (v + Zsum (map snd g) + s) with ((v + s) + Zsum (map snd g)) by lia.
      apply eqm_add; [apply wrap64_eqm | apply eqm_refl].
    + replace (v + Zsum (map snd g) + s) with ((0 + s) + (v + Zsum (map snd g))) by lia.
      apply eqm_add; [apply wrap64_eqm | apply eqm_refl].
    + replace (v + Zsum (map snd g) + s) with (v + (Zsum (map snd g) + s)) by lia.
      apply eqm_add; [apply eqm_refl | apply IH].
Qed.

Lemma cell_eqb_eq (a b : Cell) : cell_eqb a b = true <-> a = b.
Proof.
  unfold cell_eqb. split.
  - destruct (cell_compare a b) eqn:E; try discriminate.
    intros _. apply cell_compare_eq, E.
  - intros ->. rewrite cell_compare_refl. reflexivity.
Qed.

Lemma lookup_absent (k : Cell) (g : Aggregation) :
  ~ In k (map fst g) -> lookup k g = None.
Proof.
  induction g as [|[k0 v] g IH]; simpl; intros H; [reflexivity|].
  destruct (cell_compare k k0) eqn:E.
  - apply cell_compare_eq in E. subst. tauto.
  - apply IH. tauto.
  - apply IH. tauto.
Qed.

Lemma In_lookup (k : Cell) (v : Z) (g : Aggregation) :
  NoDup (map fst g) -> In (k, v) g -> lookup k g = Some v.
Proof.
  induction g as [|[k0 v0] g IH]; simpl; intros Hnd Hin; [contradiction|].
  inversion Hnd as [|? ? Hnot Hnd']; subst.
  destruct Hin as [Heq | Hin].
  - injection Heq as -> ->. rewrite cell_compare_refl. reflexivity.
  - assert (Hk : In k (map fst g)) by (apply (in_map fst) in Hin; exact Hin).
    destruct (cell_compare k k0) eqn:E.
    + apply cell_compare_eq in E. subst. contradiction.
    + apply IH; assumption.
    + apply IH; assumption.
Qed.

Lemma lookup_add_other (k : Cell) (s : Z) (g : Aggregation) (k' : Cell) :
  k' <> k -> lookup k' (add_to_group k s g) = lookup k' g.
Proof.
  intros Hne. induction g as [|[k0 v] g IH]; simpl.
  - destruct (cell_compare k' k) eqn:E; try reflexivity.
    apply cell_compare_eq in E. contradiction.
  - destruct (cell_compare k k0) eqn:E; simpl.
    + apply cell_compare_eq in E. subst k0.
      destruct (cell_compare k' k) eqn:E'; try reflexivity.
      apply cell_compare_eq in E'. contradiction.
    + destruct (cell_compare k' k) eqn:E'; try reflexivity.
      apply cell_compare_eq in E'. contradiction.
    + rewrite IH. reflexivity.
Qed.

Lemma lookup_add_same (k : Cell) (s : Z) (g : Aggregation) :
  StronglySorted cell_lt (map fst g) ->
  lookup k (add_to_group k s g)
  = Some (wrap64 (match lookup k g with Some v => v | None => 0 end + s)).
Proof.
  induction g as [|[k0 v] g IH]; simpl; intros H.
  - rewrite cell_compare_refl. reflexivity.
  - inversion H as [|? ? Hs Hall]; subst.
    destruct (cell_compare k k0) eqn:E; simpl.
    + rewrite E. reflexivity.
    + rewrite cell_compare_refl. rewrite lookup_absent; [reflexivity|].
      intros Hin. rewrite Forall_forall in Hall.
      apply (cell_lt_irrefl k). eapply cell_lt_trans; [exact E|]. apply Hall, Hin.
    + rewrite E. apply IH, Hs.
Qed.

(** ** The aggregation of a view *)

Lemma groupby_sum_snoc (key : Column) (view : DataFrame) (r : Row) :
  groupby_sum key (view ++ [r])
  = add_to_group (cell key r) (Sales r) (groupby_sum key view).
Proof. unfold groupby_sum. rewrite fold_left_app. reflexivity. Qed.

Lemma groupby_sum_keys (key : Column) (view : DataFrame) (k : Cell) :
  In k (map fst (groupby_sum key view)) <-> In k (map (cell key) view).
Proof.
  induction view as [|r view IH] using rev_ind.
  - simpl. tauto.
  - rewrite groupby_sum_snoc, add_to_group_keys, map_app, in_app_iff, IH.
    simpl. intuition.
Qed.

Lemma groupby_sum_sorted (key : Column) (view : DataFrame) :
  StronglySorted cell_lt (map fst (groupby_sum key view)).
Proof.
  induction view as [|r view IH] using rev_ind.
  - constructor.
  - rewrite groupby_sum_snoc. apply add_to_group_sorted, IH.
Qed.

Lemma Zsum_snoc (l : list Z) (x : Z) : Zsum (l ++ [x]) = Zsum l + x.
Proof. induction l as [|y l IH]; simpl; lia. Qed.

Lemma groupby_sum_eqm (key : Column) (view : DataFrame) :
  eqm (Zsum (map snd (groupby_sum key view))) (Zsum (map Sales view)).
Proof.
  induction view as [|r view IH] using rev_ind.
  - apply eqm_refl.
  - rewrite groupby_sum_snoc, map_app. simpl. rewrite Zsum_snoc.
    eapply eqm_trans; [apply add_to_group_total|].
    apply eqm_add; [exact IH | apply eqm_refl].
Qed.

Lemma group_rows_nil (key : Column) (k : Cell) (view : DataFrame) :
  group_rows key k view = [] <-> ~ In k (map (cell key) view).
Proof.
  unfold group_rows. induction view as [|r view IH]; simpl.
  - tauto.
  - destruct (cell_eqb (cell key r) k) eqn:E.
    + apply cell_eqb_eq in E. split; [discriminate | tauto].
    + assert (cell key r <> k) by (intros Heq; apply cell_eqb_eq in Heq; congruence).
      tauto.
Qed.

(** Each key holds the 64-bit sum of the Sales of its group. *)
Lemma groupby_sum_lookup (key : Column) (view : DataFrame) (k : Cell) :
  lookup k (groupby_sum key view)
  = match group_rows key k view with
    | [] => None
    | rows => Some (sum_int64 (map Sales rows))
    end.
Proof.
  induction view as [|r view IH] using rev_ind.
  - reflexivity.
  - rewrite groupby_sum_snoc. unfold group_rows in *. rewrite filter_app. simpl.
    destruct (cell_eqb (cell key r) k) eqn:E.
    + apply cell_eqb_eq in E. subst k.
      rewrite lookup_add_same by apply groupby_sum_sorted. rewrite IH.
      destruct (filter _ view) as [|r0 rows]; simpl; [reflexivity|].
      rewrite map_app. simpl.
      change (Sales r0 :: map Sales rows ++ [Sales r])
        with ((Sales r0 :: map Sales rows) ++ [Sales r]).
      rewrite sum_int64_snoc. reflexivity.
    + rewrite app_nil_r, lookup_add_other; [exact IH|].
      intros Heq. symmetry in Heq. apply cell_eqb_eq in Heq. congruence.
Qed.

Lemma groupby_sum_value (key : Column) (view : DataFrame) (k : Cell) (v : Z) :
  In (k, v) (groupby_sum key view) ->
  v = sum_int64 (map Sales (group_rows key k view)).
Proof.
  intros Hin.
  pose proof (In_lookup k v _ (sorted_keys_NoDup _ (groupby_sum_sorted key view)) Hin) as H.
  rewrite groupby_sum_lookup in H.
  destruct (group_rows key k view); [discriminate | congruence].
Qed.

(** The sums of the groups add up to the sum of the view, for every key. *)
Lemma groupby_sum_total (key : Column) (view : DataFrame) :
  sum_int64 (map snd (groupby_sum key view)) = sales_sum view.
Proof.
  apply eqm_in_range; try apply sum_int64_range.
  eapply eqm_trans; [apply sum_int64_eqm|].
  eapply eqm_trans; [apply groupby_sum_eqm|].
  apply eqm_sym, sum_int64_eqm.
Qed.

(** With Sales that are not negative and a total that fits 64 bits, no
    group overflows and the exact sum of the groups is the exact total. *)
Lemma add_to_group_exact (k : Cell) (s : Z) (g : Aggregation) :
  0 <= s ->
  Forall (fun v => 0 <= v) (map snd g) ->
  Zsum (map snd g) + s < 2 ^ 63 ->
  Forall (fun v => 0 <= v) (map snd (add_to_group k s g)) /\
  Zsum (map snd (add_to_group k s g)) = Zsum (map snd g) + s.
Proof.
  intros Hs. induction g as [|[k0 v] g IH]; simpl; intros Hpos Hlt.
  - rewrite wrap64_small by range64.
    split; [repeat constructor; lia | lia].
  - inversion Hpos as [|? ? Hv Hpos']; subst.
    assert (Hg : 0 <= Zsum (map snd g)).
    { clear - Hpos'. induction Hpos'; simpl; lia. }
    destruct (cell_compare k k0); simpl.
    + rewrite wrap64_small by range64.
      split; [constructor; [lia | assumption] | lia].
    + rewrite wrap64_small by range64.
      split; [constructor; [lia | assumption] | lia].
    + destruct (IH Hpos' ltac:(lia)) as [IH1 IH2].
      split; [constructor; assumption | lia].
Qed.

Lemma groupby_sum_total_exact (key : Column) (view : DataFrame) :
  Forall (fun r => 0 <= Sales r) view ->
  Zsum (map Sales view) < 2 ^ 63 ->
  Forall (fun v => 0 <= v) (map snd (groupby_sum key view)) /\
  Zsum (map snd (groupby_sum key view)) = Zsum (map Sales view).
Proof.
  induction view as [|r view IH] using rev_ind; intros Hpos Hlt.
  - split; [constructor | reflexivity].
  - apply Forall_app in Hpos. destruct Hpos as [Hpos Hr].
    inversion Hr as [|? ? Hs _]; subst.
    rewrite map_app in *. simpl in *. rewrite Zsum_snoc in *.
    destruct (IH Hpos ltac:(lia)) as [IH1 IH2].
    rewrite groupby_sum_snoc.
    destruct (add_to_group_exact (cell key r) (Sales r) _ Hs IH1 ltac:(lia)) as [H1 H2].
    split; [exact H1 | lia].
Qed.

(** C5: for every view the values of the aggregation by Category sum to
    the total sales of the KPIs of that view; on the whole table the sums
    by Region (Central 330, East 2733, West 415) sum to its total sales. *)
Theorem group_sums_equal_total_sales :
  (forall view : DataFrame,
     sum_int64 (map snd (groupby_sum ColCategory view))
     = total_sales (compute_kpis view)) /\
  groupby_sum ColRegion df
    = [(CStr "Central", 330); (CStr "East", 2733); (CStr "West", 415)] /\
  sum_int64 (map snd (groupby_sum ColRegion df)) = total_sales (compute_kpis df) /\
  total_sales (compute_kpis df) = 330 + 2733 + 415.
Proof.
  split; [intros view; apply groupby_sum_total|].
  split; [vm_compute; reflexivity|].
  split; [apply groupby_sum_total | vm_compute; reflexivity].
Qed.

(** C7: for every grouping column the aggregation of the empty view is the
    empty mapping, and for every view the keys of the aggregation are the
    distinct values of that column in the view, each of them once. *)
Theorem groupby_sum_key_domain (key : Column) :
  groupby_sum key [] = [] /\
  forall view : DataFrame,
    NoDup (map fst (groupby_sum key view)) /\
    forall k, In k (map fst (groupby_sum key view)) <-> In k (map (cell key) view).
Proof.
  split; [reflexivity|]. intros view. split.
  - apply sorted_keys_NoDup, groupby_sum_sorted.
  - intros k. apply groupby_sum_keys.
Qed.

(** ** The division of the KPIs *)

Lemma true_divide_finite (x y : Z) :
  y <> 0 -> true_divide x y = Finite (Qred (inject_Z x / inject_Z y)).
Proof.
  intros H. unfold true_divide.
  destruct (Z.eqb_spec y 0); [contradiction | reflexivity].
Qed.

Lemma Zsum_units_lower (view : DataFrame) :
  Forall (fun r => 1 <= Units r) view ->
  Z.of_nat (List.length view) <= Zsum (map Units view).
Proof. induction 1; simpl List.length; simpl Zsum; lia. Qed.

Lemma Zsum_units_upper (view : DataFrame) (b : Z) :
  Forall (fun r => Units r <= b) view ->
  Zsum (map Units view) <= b * Z.of_nat (List.length view).
Proof. induction 1; simpl List.length; simpl Zsum; lia. Qed.

Lemma df_units : Forall (fun r => 1 <= Units r /\ Units r <= 2) df.
Proof. repeat constructor; simpl; lia. Qed.

(** On a part of the literal table the units add up without overflow to at
    least the number of rows. *)
Lemma units_sum_of_subview (view : DataFrame) :
  Subseq view df ->
  Z.of_nat (List.length view) <= units_sum view.
Proof.
  intros Hsub.
  pose proof (Subseq_Forall _ _ _ Hsub df_units) as HF.
  pose proof (Subseq_length _ _ Hsub) as Hlen. rewrite df_length in Hlen.
  assert (H1 : Forall (fun r => 1 <= Units r) view)
    by (eapply Forall_impl; [|exact HF]; simpl; tauto).
  assert (H2 : Forall (fun r => Units r <= 2) view)
    by (eapply Forall_impl; [|exact HF]; simpl; tauto).
  apply Zsum_units_lower in H1. apply Zsum_units_upper in H2.
  unfold units_sum. rewrite sum_int64_exact; [exact H1|].
  range64.
Qed.

(** C10: every Units of the literal table is at least 1; whatever the
    selections, a run that shows a page has an empty view and then shows
    the warning without dividing, or has a view that is not empty and then
    divides by a total of units that is strictly positive, which gives a
    finite quotient. *)
Theorem division_never_by_zero (rs cs : list string) (dr : list date)
    (x : Column) (p : Page) :
  render df rs cs dr x = Ok p ->
  Forall (fun r => 1 <= Units r) df /\
  exists view,
    filtered_df df rs cs dr = Ok view /\
    (view = [] -> p = Warning /\ displayed_avg p = None) /\
    (view <> [] ->
       0 < units_sum view /\
       displayed_avg p = Some (true_divide (sales_sum view) (units_sum view)) /\
       true_divide (sales_sum view) (units_sum view)
       = Finite (Qred (inject_Z (sales_sum view) / inject_Z (units_sum view)))).
Proof.
  intros H. split.
  { eapply Forall_impl; [|exact df_units]. simpl. tauto. }
  rewrite render_page in H.
  destruct (filtered_df df rs cs dr) as [view|e] eqn:E; [|discriminate].
  injection H as <-. exists view. split; [reflexivity|].
  split.
  - intros ->. split; reflexivity.
  - intros Hne.
    pose proof (units_sum_of_subview view (filtered_df_Subseq _ _ _ _ _ E)) as Hu.
    destruct view as [|r view]; [contradiction|].
    simpl List.length in Hu.
    assert (Hpos : 0 < units_sum (r :: view)) by lia.
    split; [exact Hpos|]. split; [reflexivity|].
    apply true_divide_finite. lia.
Qed.

Lemma division_never_by_zero_witness :
  Forall (fun r => 1 <= Units r) df /\
  exists view,
    filtered_df df ["East"%string] ["Electronics"%string]
      [mkdate 2023 1 1; mkdate 2023 1 10] = Ok view /\
    (view = [] ->
       page (filter (mask ["East"%string] ["Electronics"%string]
                       (mkdate 2023 1 1) (mkdate 2023 1 10)) df) ColProduct = Warning /\
       displayed_avg
         (page (filter (mask ["East"%string] ["Electronics"%string]
                          (mkdate 2023 1 1) (mkdate 2023 1 10)) df) ColProduct) = None) /\
    (view <> [] ->
       0 < units_sum view /\
       displayed_avg
         (page (filter (mask ["East"%string] ["Electronics"%string]
                          (mkdate 2023 1 1) (mkdate 2023 1 10)) df) ColProduct)
       = Some (true_divide (sales_sum view) (units_sum view)) /\
       true_divide (sales_sum view) (units_sum view)
       = Finite (Qred (inject_Z (sales_sum view) / inject_Z (units_sum view)))).
Proof.
  apply (division_never_by_zero ["East"%string] ["Electronics"%string]
           [mkdate 2023 1 1; mkdate 2023 1 10] ColProduct).
  reflexivity.
Defined.




(** * Further properties of the script *)

(** ** The order of dates *)

Lemma date_le_refl (a : date) : date_le a a.
Proof. unfold date_le. lia. Qed.

Lemma date_le_trans (a b c : date) : date_le a b -> date_le b c -> date_le a c.
Proof. unfold date_le. lia. Qed.

Lemma date_le_total (a b : date) : date_le a b \/ date_le b a.
Proof. unfold date_le. lia. Qed.

Lemma date_lt_not_le (a b : date) : date_lt a b -> ~ date_le b a.
Proof. unfold date_lt, date_le. lia. Qed.

Lemma date_leb_false (a b : date) : date_leb a b = false -> date_le b a.
Proof.
  intros H. destruct (date_le_total a b) as [Hab | Hba]; [|assumption].
  apply date_leb_le in Hab. congruence.
Qed.

Lemma date_min_le (a b : date) : date_le (date_min a b) a /\ date_le (date_min a b) b.
Proof.
  unfold date_min. destruct (date_leb a b) eqn:E.
  - split; [apply date_le_refl | apply date_leb_le, E].
  - split; [apply date_leb_false, E | apply date_le_refl].
Qed.

Lemma date_max_ge (a b : date) : date_le a (date_max a b) /\ date_le b (date_max a b).
Proof.
  unfold date_max. destruct (date_leb a b) eqn:E.
  - split; [apply date_leb_le, E | apply date_le_refl].
  - split; [apply date_le_refl | apply date_leb_false, E].
Qed.

Lemma fold_date_min (rest : DataFrame) (m0 : date) :
  let m := fold_left (fun m r' => date_min m (Date r')) rest m0 in
  date_le m m0 /\ forall r, In r rest -> date_le m (Date r).
Proof.
  revert m0. induction rest as [|r0 rest IH]; intros m0; simpl.
  - split; [apply date_le_refl | tauto].
  - destruct (IH (date_min m0 (Date r0))) as [H1 H2].
    destruct (date_min_le m0 (Date r0)) as [Ha Hb].
    split; [eapply date_le_trans; eassumption|].
    intros r [<- | Hin]; [eapply date_le_trans; eassumption | apply H2, Hin].
Qed.

Lemma fold_date_max (rest : DataFrame) (m0 : date) :
  let m := fold_left (fun m r' => date_max m (Date r')) rest m0 in
  date_le m0 m /\ forall r, In r rest -> date_le (Date r) m.
Proof.
  revert m0. induction rest as [|r0 rest IH]; intros m0; simpl.
  - split; [apply date_le_refl | tauto].
  - destruct (IH (date_max m0 (Date r0))) as [H1 H2].
    destruct (date_max_ge m0 (Date r0)) as [Ha Hb].
    split; [eapply date_le_trans; eassumption|].
    intros r [<- | Hin]; [eapply date_le_trans; eassumption | apply H2, Hin].
Qed.

Lemma min_date_le (d : DataFrame) (lo : date) :
  min_date d = Some lo -> forall r, In r d -> date_le lo (Date r).
Proof.
  destruct d as [|r0 rest]; simpl; [discriminate|].
  intros H. injection H as <-.
  destruct (fold_date_min rest (Date r0)) as [H1 H2].
  intros r [<- | Hin]; [exact H1 | apply H2, Hin].
Qed.

Lemma max_date_ge (d : DataFrame) (hi : date) :
  max_date d = Some hi -> forall r, In r d -> date_le (Date r) hi.
Proof.
  destruct d as [|r0 rest]; simpl; [discriminate|].
  intros H. injection H as <-.
  destruct (fold_date_max rest (Date r0)) as [H1 H2].
  intros r [<- | Hin]; [exact H1 | apply H2, Hin].
Qed.

(** ** The options of the multiselects *)

Lemma Subseq_trans {A} (l1 l2 l3 : list A) :
  Subseq l1 l2 -> Subseq l2 l3 -> Subseq l1 l3.
Proof.
  intros H12 H23. revert l1 H12.
  induction H23 as [|x l2 l3 _ IH|x l2 l3 _ IH]; intros l1 H12.
  - exact H12.
  - constructor. apply IH, H12.
  - inversion H12; subst.
    + constructor. apply IH. assumption.
    + apply Subseq_keep. apply IH. assumption.
Qed.

Lemma unique_In (l : list string) (x : string) : In x (unique l) <-> In x l.
Proof.
  induction l as [|y l IH]; simpl; [tauto|].
  rewrite filter_In, IH, negb_true_iff, String.eqb_neq.
  destruct (string_dec x y) as [-> | Hne]; intuition.
Qed.

Lemma unique_NoDup (l : list string) : NoDup (unique l).
Proof.
  induction l as [|y l IH]; simpl; constructor.
  - rewrite filter_In, String.eqb_refl. simpl. intros [_ H]. discriminate H.
  - apply NoDup_filter, IH.
Qed.

Lemma unique_Subseq (l : list string) : Subseq (unique l) l.
Proof.
  induction l as [|y l IH]; simpl.
  - constructor.
  - apply Subseq_keep.
    eapply Subseq_trans; [apply Subseq_filter | exact IH].
Qed.

Lemma filter_other_snoc (l : list string) (x y : string) :
  filter (fun z => negb (String.eqb z y)) (l ++ [x])
  = (filter (fun z => negb (String.eqb z y)) l
     ++ (if String.eqb x y then [] else [x]))%list.
Proof.
  rewrite filter_app. simpl. destruct (String.eqb x y); reflexivity.
Qed.

(** [unique] scans the column from its first value to its last and keeps a
    value when it has not met it before. *)
Lemma unique_snoc (l : list string) (x : string) :
  unique (l ++ [x]) = if isin x l then unique l else (unique l ++ [x])%list.
Proof.
  induction l as [|y l IH]; [reflexivity|].
  change (unique ((y :: l) ++ [x]))
    with (y :: filter (fun z => negb (String.eqb z y)) (unique (l ++ [x]))).
  rewrite IH. unfold isin. simpl existsb. fold (isin x l).
  destruct (isin x l) eqn:El.
  - rewrite orb_true_r. reflexivity.
  - rewrite orb_false_r, filter_other_snoc.
    destruct (String.eqb x y); [rewrite app_nil_r|]; reflexivity.
Qed.

(** X1: the options that [unique] offers to a multiselect are the values
    of the column, each of them once, in the order in which the column
    first shows them: a value at the end of the column is appended to the
    options when no earlier row has it, and changes nothing otherwise. *)
Theorem unique_options (l : list string) :
  NoDup (unique l) /\
  Subseq (unique l) l /\
  (forall x, In x (unique l) <-> In x l) /\
  unique [] = [] /\
  forall x, unique (l ++ [x])
            = if isin x l then unique l else (unique l ++ [x])%list.
Proof.
  split; [apply unique_NoDup|]. split; [apply unique_Subseq|].
  split; [intros x; apply unique_In|]. split; [reflexivity|].
  intros x. apply unique_snoc.
Qed.

Lemma filter_all {A} (f : A -> bool) (l : list A) :
  (forall x, In x l -> f x = true) -> filter f l = l.
Proof.
  intros H. apply forallb_filter_id, forallb_forall, H.
Qed.

(** X2: with the defaults of the sidebar (every region, every category,
    the earliest and the latest date of the table) the filter returns the
    whole table, for every table that has a row. *)
Theorem default_selection_shows_all (d : DataFrame) :
  d <> [] ->
  exists lo hi,
    min_date d = Some lo /\ max_date d = Some hi /\
    filtered_df d (all_regions d) (all_categories d) [lo; hi] = Ok d.
Proof.
  intros Hne. destruct d as [|r0 rest] eqn:Ed; [contradiction|]. rewrite <- Ed.
  assert (Hlo : exists lo, min_date d = Some lo) by (subst d; simpl; eauto).
  assert (Hhi : exists hi, max_date d = Some hi) by (subst d; simpl; eauto).
  destruct Hlo as [lo Hlo], Hhi as [hi Hhi]. exists lo, hi.
  split; [assumption|]. split; [assumption|].
  rewrite filtered_df_range. f_equal. apply filter_all.
  intros r Hr. apply mask_true. repeat split.
  - apply unique_In, in_map, Hr.
  - apply unique_In, in_map, Hr.
  - apply (min_date_le d lo Hlo r Hr).
  - apply (max_date_ge d hi Hhi r Hr).
Qed.

Lemma default_selection_shows_all_witness :
  exists lo hi,
    min_date df = Some lo /\ max_date df = Some hi /\
    filtered_df df (all_regions df) (all_categories df) [lo; hi] = Ok df.
Proof.
  apply (default_selection_shows_all df). discriminate.
Defined.

(** X3: a range whose end is before its start is no error: the view is
    empty, whatever the table and the selections. *)
Theorem inverted_range_empty (d : DataFrame) (spec : FilterSpec) :
  date_lt (dateEnd spec) (dateStart spec) ->
  applyFilter d spec = Ok [].
Proof.
  intros Hlt. unfold applyFilter. rewrite filtered_df_range. f_equal.
  induction d as [|r d IH]; [reflexivity|]. simpl. rewrite IH.
  destruct (mask _ _ _ _ r) eqn:E; [|reflexivity].
  apply mask_true in E. destruct E as (_ & _ & H1 & H2).
  exfalso. apply (date_lt_not_le _ _ Hlt). eapply date_le_trans; eassumption.
Qed.

Lemma inverted_range_empty_witness :
  applyFilter df (mkFilterSpec (all_regions df) (all_categories df)
                    (mkdate 2023 1 10) (mkdate 2023 1 1)) = Ok [].
Proof.
  apply (inverted_range_empty df
           (mkFilterSpec (all_regions df) (all_categories df)
              (mkdate 2023 1 10) (mkdate 2023 1 1))).
  unfold date_lt. simpl. lia.
Defined.

(** ** The filter as an operation on views *)

Lemma filter_idem {A} (f : A -> bool) (l : list A) :
  filter f (filter f l) = filter f l.
Proof.
  apply filter_all. intros x Hx. apply filter_In in Hx. tauto.
Qed.

Lemma Subseq_filter_impl {A} (f g : A -> bool) (l : list A) :
  (forall x, In x l -> f x = true -> g x = true) ->
  Subseq (filter f l) (filter g l).
Proof.
  induction l as [|x l IH]; intros H; simpl.
  - constructor.
  - assert (IH' : Subseq (filter f l) (filter g l))
      by (apply IH; intros y Hy; apply H; right; exact Hy).
    destruct (f x) eqn:Ef.
    + rewrite (H x (or_introl eq_refl) Ef). apply Subseq_keep, IH'.
    + destruct (g x); [apply Subseq_skip, IH' | exact IH'].
Qed.

Lemma filter_nil_iff {A} (f : A -> bool) (l : list A) :
  filter f l = [] <-> forall x, In x l -> f x = false.
Proof.
  induction l as [|x l IH]; simpl.
  - tauto.
  - destruct (f x) eqn:E.
    + split; [discriminate|]. intros H. specialize (H x (or_introl eq_refl)). congruence.
    + rewrite IH. split.
      * intros H y [<- | Hy]; auto.
      * intros H y Hy. apply H. right. exact Hy.
Qed.

(** X4: filtering a view again with the criteria that produced it changes
    nothing. *)
Theorem filter_twice (d : DataFrame) (spec : FilterSpec) :
  exists view,
    applyFilter d spec = Ok view /\ applyFilter view spec = Ok view.
Proof.
  eexists. split; [apply filtered_df_range|].
  unfold applyFilter. rewrite filtered_df_range, filter_idem. reflexivity.
Qed.

(** X5: selecting more (more regions, more categories, an earlier start, a
    later end) never loses a row: the narrower view is a subsequence of the
    wider one. *)
Theorem wider_selection_wider_view (d : DataFrame) (spec spec' : FilterSpec) :
  incl (regions spec) (regions spec') ->
  incl (categories spec) (categories spec') ->
  date_le (dateStart spec') (dateStart spec) ->
  date_le (dateEnd spec) (dateEnd spec') ->
  exists view view',
    applyFilter d spec = Ok view /\
    applyFilter d spec' = Ok view' /\
    Subseq view view'.
Proof.
  intros Hr Hc Hs He. do 2 eexists.
  split; [apply filtered_df_range|]. split; [apply filtered_df_range|].
  apply Subseq_filter_impl. intros r _ Hm.
  apply mask_true in Hm. destruct Hm as (H1 & H2 & H3 & H4).
  apply mask_true. repeat split.
  - apply Hr, H1.
  - apply Hc, H2.
  - eapply date_le_trans; eassumption.
  - eapply date_le_trans; eassumption.
Qed.

Lemma wider_selection_wider_view_witness :
  exists view view',
    applyFilter df (mkFilterSpec ["East"%string] ["Electronics"%string]
                      (mkdate 2023 1 3) (mkdate 2023 1 7)) = Ok view /\
    applyFilter df (mkFilterSpec ["East"; "West"]%string (all_categories df)
                      (mkdate 2023 1 1) (mkdate 2023 1 10)) = Ok view' /\
    Subseq view view'.
Proof.
  apply (wider_selection_wider_view df
           (mkFilterSpec ["East"%string] ["Electronics"%string]
              (mkdate 2023 1 3) (mkdate 2023 1 7))
           (mkFilterSpec ["East"; "West"]%string (all_categories df)
              (mkdate 2023 1 1) (mkdate 2023 1 10))).
  - intros x [<- | []]. simpl. tauto.
  - intros x [<- | []]. simpl. tauto.
  - unfold date_le. simpl. lia.
  - unfold date_le. simpl. lia.
Defined.

Lemma isin_ext (v : string) (l l' : list string) :
  (forall x, In x l <-> In x l') -> isin v l = isin v l'.
Proof.
  intros H. apply eq_true_iff_eq. rewrite !isin_In. apply H.
Qed.

(** X6: the view depends on which values are selected, not on their order
    in the selection nor on how often they occur in it. *)
Theorem selection_as_a_set (d : DataFrame) (rs rs' cs cs' : list string)
    (dr : list date) :
  (forall x, In x rs <-> In x rs') ->
  (forall x, In x cs <-> In x cs') ->
  filtered_df d rs cs dr = filtered_df d rs' cs' dr.
Proof.
  intros Hr Hc. destruct dr as [|s [|e [|y dr]]]; try reflexivity.
  rewrite !filtered_df_range. f_equal. apply filter_ext. intros r.
  unfold mask. rewrite (isin_ext _ rs rs' Hr), (isin_ext _ cs cs' Hc). reflexivity.
Qed.

Lemma selection_as_a_set_witness :
  filtered_df df ["West"; "East"; "West"]%string ["Food"%string]
    [mkdate 2023 1 1; mkdate 2023 1 10]
  = filtered_df df ["East"; "West"]%string ["Food"; "Food"]%string
      [mkdate 2023 1 1; mkdate 2023 1 10].
Proof.
  apply (selection_as_a_set df ["West"; "East"; "West"]%string ["East"; "West"]%string
           ["Food"%string] ["Food"; "Food"]%string).
  - intros x. simpl. tauto.
  - intros x. simpl. tauto.
Defined.

(** X7: the filter fails exactly on a date tuple that has neither no date
    nor two dates, and then with [ValueError]; so does the run. *)
Theorem filter_raises_iff (d : DataFrame) (rs cs : list string) (dr : list date)
    (x : Column) :
  (filtered_df d rs cs dr = Raise ValueError <->
     List.length dr <> 0%nat /\ List.length dr <> 2%nat) /\
  (render d rs cs dr x = Raise ValueError <->
     List.length dr <> 0%nat /\ List.length dr <> 2%nat) /\
  filtered_df d rs cs dr <> Raise Unbound /\
  render d rs cs dr x <> Raise Unbound.
Proof.
  rewrite render_page.
  destruct dr as [|s [|e [|y dr]]]; simpl List.length.
  - rewrite filtered_df_absent.
    repeat split; try discriminate; intros [H _]; contradiction.
  - change (filtered_df d rs cs [s]) with (@Raise DataFrame ValueError).
    repeat split; try discriminate; lia.
  - rewrite filtered_df_range.
    repeat split; try discriminate; intros [_ H]; contradiction.
  - change (filtered_df d rs cs (s :: e :: y :: dr)) with (@Raise DataFrame ValueError).
    repeat split; try discriminate; lia.
Qed.

(** X8: with both dates given, the run shows the warning exactly when no
    record of the table passes the three tests. *)
Theorem warning_iff_no_match (d : DataFrame) (spec : FilterSpec) (x : Column) :
  render d (regions spec) (categories spec) [dateStart spec; dateEnd spec] x
    = Ok Warning
  <->
  forall r, In r d ->
    ~ (In (Region r) (regions spec) /\
       In (Category r) (categories spec) /\
       date_le (dateStart spec) (Date r) /\
       date_le (Date r) (dateEnd spec)).
Proof.
  rewrite render_page, filtered_df_range.
  set (f := mask (regions spec) (categories spec) (dateStart spec) (dateEnd spec)).
  assert (Hpage : Ok (page (filter f d) x) = Ok Warning <-> filter f d = []).
  { unfold page. destruct (filter f d); simpl; split; intros H;
      try reflexivity; discriminate H. }
  rewrite Hpage, filter_nil_iff. split.
  - intros H r Hr Hm. apply mask_true in Hm. specialize (H r Hr).
    unfold f in H. congruence.
  - intros H r Hr. destruct (f r) eqn:E; [|reflexivity].
    exfalso. apply (H r Hr). apply mask_true. exact E.
Qed.

(** ** The aggregations as mappings *)

Lemma keys_are_dates (l : list Cell) :
  (forall k, In k l -> exists dt, k = CDate dt) ->
  StronglySorted cell_lt l ->
  exists dates, l = map CDate dates /\ StronglySorted date_lt dates.
Proof.
  induction l as [|k l IH]; intros Hall Hs.
  - exists []. split; [reflexivity | constructor].
  - inversion Hs as [|? ? Hs' Hlt]; subst.
    destruct (Hall k (or_introl eq_refl)) as [dt ->].
    destruct (IH (fun k' Hk' => Hall k' (or_intror Hk')) Hs') as [dates [-> Hd]].
    exists (dt :: dates). split; [reflexivity|].
    constructor; [exact Hd|].
    rewrite Forall_forall in *. intros dt' Hin.
    apply date_compare_lt. apply (Hlt (CDate dt')). apply in_map, Hin.
Qed.

(** X10: the lines of an aggregation come in strictly ascending order of
    their key, for every column; the daily trend is therefore in the order
    of time. *)
Theorem groupby_sum_ascending (view : DataFrame) :
  (forall key, StronglySorted cell_lt (map fst (groupby_sum key view))) /\
  exists dates,
    map fst (groupby_sum ColDate view) = map CDate dates /\
    StronglySorted date_lt dates.
Proof.
  split; [intros key; apply groupby_sum_sorted|].
  apply keys_are_dates; [|apply groupby_sum_sorted].
  intros k Hk. apply groupby_sum_keys in Hk. apply in_map_iff in Hk.
  destruct Hk as [r [<- _]]. simpl. eauto.
Qed.

(** X11: an aggregation holds the pair of a key and a value exactly when
    the key occurs in the view and the value is the 64-bit sum of the Sales
    of the rows that have this key. *)
Theorem groupby_sum_entries (key : Column) (view : DataFrame) (k : Cell) (v : Z) :
  In (k, v) (groupby_sum key view) <->
  In k (map (cell key) view) /\
  v = sum_int64 (map Sales (group_rows key k view)).
Proof.
  split.
  - intros Hin. split.
    + apply groupby_sum_keys. apply (in_map fst) in Hin. exact Hin.
    + apply groupby_sum_value, Hin.
  - intros [Hk ->]. apply groupby_sum_keys in Hk. apply in_map_iff in Hk.
    destruct Hk as [[k' v'] [Hfst Hin]]. simpl in Hfst. subst k'.
    rewrite <- (groupby_sum_value _ _ _ _ Hin). exact Hin.
Qed.

Lemma Zsum_perm (l l' : list Z) : Permutation l l' -> Zsum l = Zsum l'.
Proof. induction 1; simpl; lia. Qed.

Lemma sum_int64_perm (l l' : list Z) : Permutation l l' -> sum_int64 l = sum_int64 l'.
Proof. intros H. rewrite !sum_int64_wrap, (Zsum_perm _ _ H). reflexivity. Qed.

Lemma filter_perm {A} (f : A -> bool) (l l' : list A) :
  Permutation l l' -> Permutation (filter f l) (filter f l').
Proof.
  induction 1 as [|x l l' _ IH|x y l|l l' l'' _ IH1 _ IH2]; simpl.
  - constructor.
  - destruct (f x); [apply perm_skip|]; exact IH.
  - destruct (f x), (f y); try apply Permutation_refl. apply perm_swap.
  - eapply Permutation_trans; eassumption.
Qed.

Lemma lookup_below_head (k k0 : Cell) (v : Z) (g : Aggregation) :
  cell_lt k k0 ->
  StronglySorted cell_lt (map fst ((k0, v) :: g)) ->
  lookup k ((k0, v) :: g) = None.
Proof.
  intros Hlt Hs. apply lookup_absent. simpl. inversion Hs as [|? ? _ Hall]; subst.
  intros [-> | Hin].
  - exact (cell_lt_irrefl k Hlt).
  - rewrite Forall_forall in Hall.
    apply (cell_lt_irrefl k). eapply cell_lt_trans; [exact Hlt | apply Hall, Hin].
Qed.

Lemma lookup_head (k : Cell) (v : Z) (g : Aggregation) :
  lookup k ((k, v) :: g) = Some v.
Proof. simpl. rewrite cell_compare_refl. reflexivity. Qed.

(** Two sorted aggregations that hold the same value for every key are the
    same list. *)
Lemma sorted_lookup_ext (g1 g2 : Aggregation) :
  StronglySorted cell_lt (map fst g1) ->
  StronglySorted cell_lt (map fst g2) ->
  (forall k, lookup k g1 = lookup k g2) ->
  g1 = g2.
Proof.
  revert g2. induction g1 as [|[k1 v1] g1 IH]; intros [|[k2 v2] g2] H1 H2 Hl.
  - reflexivity.
  - specialize (Hl k2). rewrite lookup_head in Hl. discriminate Hl.
  - specialize (Hl k1). rewrite lookup_head in Hl. discriminate Hl.
  - destruct (cell_compare k1 k2) eqn:E.
    + apply cell_compare_eq in E. subst k2.
      pose proof (Hl k1) as Hv. rewrite !lookup_head in Hv. injection Hv as <-.
      f_equal. inversion H1 as [|? ? Hs1 Ha1]; inversion H2 as [|? ? Hs2 Ha2]; subst.
      apply IH; try assumption. intros k.
      destruct (cell_compare k k1) eqn:E2.
      * apply cell_compare_eq in E2. subst k.
        rewrite Forall_forall in Ha1, Ha2.
        rewrite !lookup_absent; [reflexivity | |];
          intros Hin; [apply Ha2 in Hin | apply Ha1 in Hin];
          exact (cell_lt_irrefl _ Hin).
      * specialize (Hl k). simpl in Hl. rewrite E2 in Hl. exact Hl.
      * specialize (Hl k). simpl in Hl. rewrite E2 in Hl. exact Hl.
    + specialize (Hl k1). rewrite lookup_head in Hl.
      rewrite (lookup_below_head k1 k2 v2 g2 E H2) in Hl. discriminate Hl.
    + specialize (Hl k2). rewrite lookup_head in Hl.
      rewrite (lookup_below_head k2 k1 v1 g1 (cell_compare_gt _ _ E) H1) in Hl.
      discriminate Hl.
Qed.

(** X12: an aggregation does not depend on the order of the rows of the
    view. *)
Theorem groupby_sum_row_order (key : Column) (view view' : DataFrame) :
  Permutation view view' ->
  groupby_sum key view = groupby_sum key view'.
Proof.
  intros Hp. apply sorted_lookup_ext; try apply groupby_sum_sorted.
  intros k. rewrite !groupby_sum_lookup.
  pose proof (filter_perm (fun r => cell_eqb (cell key r) k) _ _ Hp) as Hg.
  fold (group_rows key k view) in Hg. fold (group_rows key k view') in Hg.
  pose proof (sum_int64_perm _ _ (Permutation_map Sales Hg)) as Hs.
  destruct (group_rows key k view) as [|r rows].
  - apply Permutation_nil in Hg. rewrite Hg. reflexivity.
  - destruct (group_rows key k view') as [|r' rows'].
    + apply Permutation_sym, Permutation_nil in Hg. discriminate Hg.
    + rewrite Hs. reflexivity.
Qed.

Lemma groupby_sum_row_order_witness :
  groupby_sum ColRegion (rev df) = groupby_sum ColRegion df.
Proof.
  apply (groupby_sum_row_order ColRegion (rev df) df).
  apply Permutation_sym, Permutation_rev.
Defined.

(** X13: the three KPIs do not depend on the order of the rows either. *)
Theorem compute_kpis_row_order (view view' : DataFrame) :
  Permutation view view' ->
  compute_kpis view = compute_kpis view'.
Proof.
  intros Hp. unfold compute_kpis, sales_sum, units_sum.
  rewrite (sum_int64_perm _ _ (Permutation_map Sales Hp)).
  rewrite (sum_int64_perm _ _ (Permutation_map Units Hp)).
  reflexivity.
Qed.

Lemma compute_kpis_row_order_witness :
  compute_kpis (rev df) = compute_kpis df.
Proof.
  apply (compute_kpis_row_order (rev df) df).
  apply Permutation_sym, Permutation_rev.
Defined.

(** X14: on a page that shows the dashboard, the values of each of the
    four charts add up to the Total Sales shown above them, and the table
    shown is the view. *)
Theorem charts_sum_to_total_sales (view : DataFrame) (x : Column)
    (raw : DataFrame) (k : Metrics) (c1 c2 c3 c4 : Aggregation) :
  page view x = Dashboard raw k c1 c2 c3 c4 ->
  raw = view /\
  sum_int64 (map snd c1) = total_sales k /\
  sum_int64 (map snd c2) = total_sales k /\
  sum_int64 (map snd c3) = total_sales k /\
  sum_int64 (map snd c4) = total_sales k.
Proof.
  unfold page. destruct (empty view); [discriminate|].
  intros H. injection H as <- <- <- <- <- <-. simpl.
  repeat split; apply groupby_sum_total.
Qed.

Lemma charts_sum_to_total_sales_witness :
  df = df /\
  sum_int64 (map snd (groupby_sum ColCategory df)) = total_sales (compute_kpis df) /\
  sum_int64 (map snd (groupby_sum ColRegion df)) = total_sales (compute_kpis df) /\
  sum_int64 (map snd (groupby_sum ColDate df)) = total_sales (compute_kpis df) /\
  sum_int64 (map snd (groupby_sum ColProduct df)) = total_sales (compute_kpis df).
Proof.
  apply (charts_sum_to_total_sales df ColProduct df (compute_kpis df)
           (groupby_sum ColCategory df) (groupby_sum ColRegion df)
           (groupby_sum ColDate df) (groupby_sum ColProduct df)).
  reflexivity.
Defined.

(** X15: the charts of a filtered view show selected values only: every
    region of the region chart and every category of the category chart is
    a selected one, and every day of the trend lies in the date range. *)
Theorem chart_keys_are_selected (d : DataFrame) (spec : FilterSpec) (view : DataFrame) :
  applyFilter d spec = Ok view ->
  (forall k, In k (map fst (groupby_sum ColRegion view)) ->
     exists s, k = CStr s /\ In s (regions spec)) /\
  (forall k, In k (map fst (groupby_sum ColCategory view)) ->
     exists s, k = CStr s /\ In s (categories spec)) /\
  (forall k, In k (map fst (groupby_sum ColDate view)) ->
     exists dt, k = CDate dt /\
       date_le (dateStart spec) dt /\ date_le dt (dateEnd spec)).
Proof.
  intros H. unfold applyFilter in H. rewrite filtered_df_range in H.
  injection H as <-.
  repeat split; intros k Hk; apply groupby_sum_keys in Hk;
    apply in_map_iff in Hk; destruct Hk as [r [<- Hr]];
    apply filter_In in Hr; destruct Hr as [_ Hm];
    apply mask_true in Hm; simpl; eexists; split; try reflexivity; tauto.
Qed.

Lemma chart_keys_are_selected_witness :
  (forall k,
     In k (map fst (groupby_sum ColRegion
                      (filter (mask ["East"%string] ["Electronics"%string]
                                 (mkdate 2023 1 1) (mkdate 2023 1 10)) df))) ->
     exists s, k = CStr s /\ In s ["East"%string]) /\
  (forall k,
     In k (map fst (groupby_sum ColCategory
                      (filter (mask ["East"%string] ["Electronics"%string]
                                 (mkdate 2023 1 1) (mkdate 2023 1 10)) df))) ->
     exists s, k = CStr s /\ In s ["Electronics"%string]) /\
  (forall k,
     In k (map fst (groupby_sum ColDate
                      (filter (mask ["East"%string] ["Electronics"%string]
                                 (mkdate 2023 1 1) (mkdate 2023 1 10)) df))) ->
     exists dt, k = CDate dt /\
       date_le (mkdate 2023 1 1) dt /\ date_le dt (mkdate 2023 1 10)).
Proof.
  apply (chart_keys_are_selected df
           (mkFilterSpec ["East"%string] ["Electronics"%string]
              (mkdate 2023 1 1) (mkdate 2023 1 10))).
  reflexivity.
Defined.

(** X16: an aggregation has at most as many lines as the view has rows,
    and it has no line only for the empty view. *)
Theorem groupby_sum_size (key : Column) (view : DataFrame) :
  (List.length (groupby_sum key view) <= List.length view)%nat /\
  (groupby_sum key view = [] <-> view = []).
Proof.
  split.
  - rewrite <- (length_map fst (groupby_sum key view)).
    rewrite <- (length_map (cell key) view).
    apply NoDup_incl_length.
    + apply sorted_keys_NoDup, groupby_sum_sorted.
    + intros k Hk. apply groupby_sum_keys, Hk.
  - split.
    + intros H. destruct view as [|r view]; [reflexivity|]. exfalso.
      assert (Hk : In (cell key r) (map fst (groupby_sum key (r :: view))))
        by (apply groupby_sum_keys; left; reflexivity).
      rewrite H in Hk. exact Hk.
    + intros ->. reflexivity.
Qed.

(** X17: when no Sales is negative and the exact total fits 64 bits,
    nothing wraps around: Total Sales is the exact sum of the Sales, every
    value of an aggregation is non-negative, and the values add up exactly
    to that total. *)
Theorem no_overflow_exact_sums (key : Column) (view : DataFrame) :
  Forall (fun r => 0 <= Sales r) view ->
  Zsum (map Sales view) < 2 ^ 63 ->
  total_sales (compute_kpis view) = Zsum (map Sales view) /\
  Forall (fun v => 0 <= v) (map snd (groupby_sum key view)) /\
  Zsum (map snd (groupby_sum key view)) = Zsum (map Sales view).
Proof.
  intros Hpos Hlt.
  destruct (groupby_sum_total_exact key view Hpos Hlt) as [H1 H2].
  split; [|split; assumption].
  simpl. unfold sales_sum. apply sum_int64_exact.
  assert (0 <= Zsum (map Sales view)) by (clear - Hpos; induction Hpos; simpl; lia).
  range64.
Qed.

Lemma no_overflow_exact_sums_witness :
  total_sales (compute_kpis df) = Zsum (map Sales df) /\
  Forall (fun v => 0 <= v) (map snd (groupby_sum ColCategory df)) /\
  Zsum (map snd (groupby_sum ColCategory df)) = Zsum (map Sales df).
Proof.
  apply (no_overflow_exact_sums ColCategory df).
  - repeat constructor; simpl; lia.
  - simpl. lia.
Defined.

(** ** The dimension of the last chart *)

Lemma column_name_inj (a b : Column) : column_name a = column_name b -> a = b.
Proof. destruct a, b; simpl; intros H; try reflexivity; discriminate H. Qed.

Lemma index_of_nth (name : string) (options : list Column) (i : nat) :
  index_of name options = Some i ->
  exists c, nth_error options i = Some c /\ column_name c = name.
Proof.
  revert i. induction options as [|c options IH]; intros i; simpl; [discriminate|].
  destruct (String.eqb_spec (column_name c) name) as [E | _].
  - intros H. injection H as <-. exists c. split; [reflexivity | exact E].
  - destruct (index_of name options) as [j|]; simpl; [|discriminate].
    intros H. injection H as <-. apply IH. reflexivity.
Qed.

Lemma index_of_found (name : string) (options : list Column) :
  (exists c, In c options /\ column_name c = name) ->
  exists i, index_of name options = Some i.
Proof.
  induction options as [|c options IH]; intros [c0 [Hin Hn]]; simpl.
  - contradiction.
  - destruct (String.eqb_spec (column_name c) name) as [_ | Hne]; [eauto|].
    destruct Hin as [-> | Hin]; [contradiction|].
    destruct IH as [i ->]; [eauto|]. simpl. eauto.
Qed.

Lemma has_product (options : list Column) :
  existsb (fun c => String.eqb (column_name c) "Product") options = true <->
  In ColProduct options.
Proof.
  rewrite existsb_exists. split.
  - intros [c [Hin Hc]]. apply String.eqb_eq in Hc.
    apply (column_name_inj c ColProduct) in Hc. subst. exact Hin.
  - intros Hin. exists ColProduct. split; [exact Hin | reflexivity].
Qed.

(** X18: the select box never offers Sales, Date or Units, so the last
    chart is always grouped by a text column; and whatever the options,
    the box starts on Product when Product is one of them and on the first
    option otherwise. *)
Theorem dimension_options :
  (forall c, In c x_axis_options ->
     c <> ColSales /\ c <> ColDate /\ c <> ColUnits /\
     forall r, exists s, cell c r = CStr s) /\
  (forall options,
     (In ColProduct options /\
      nth_error options (default_index options) = Some ColProduct) \/
     (~ In ColProduct options /\ default_index options = 0%nat)).
Proof.
  split.
  - intros c Hc. simpl in Hc.
    destruct Hc as [<- | [<- | [<- | []]]];
      repeat split; try discriminate; intros r; simpl; eauto.
  - intros options. unfold default_index.
    destruct (existsb _ options) eqn:E.
    + left. apply has_product in E. split; [exact E|].
      destruct (index_of_found "Product" options) as [i Hi].
      { exists ColProduct. split; [exact E | reflexivity]. }
      rewrite Hi. destruct (index_of_nth _ _ _ Hi) as [c [Hn Hc]].
      apply (column_name_inj c ColProduct) in Hc. subst. exact Hn.
    + right. split; [|reflexivity].
      intros Hin. apply has_product in Hin. congruence.
Qed.

(** ** The loader *)

Lemma split_on_cons (sep : ascii) (s : string) :
  exists w ws, Csv.split_on sep s = w :: ws.
Proof.
  destruct s as [|c s]; simpl; [eauto|].
  destruct (Ascii.eqb c sep); [eauto|].
  destruct (Csv.split_on sep s); eauto.
Qed.

Lemma split_on_snoc (sep : ascii) (s : string) :
  Csv.split_on sep (s ++ String sep EmptyString)
  = (Csv.split_on sep s ++ [EmptyString])%list.
Proof.
  induction s as [|c s IH]; simpl.
  - rewrite Ascii.eqb_refl. reflexivity.
  - destruct (Ascii.eqb c sep); rewrite IH; [reflexivity|].
    destruct (split_on_cons sep s) as [w [ws ->]]. reflexivity.
Qed.

(** X20: a blank line before the header or after the last row does not
    change what the loader returns. *)
Theorem read_csv_blank_lines (text : string) :
  Csv.read_csv (String Csv.newline text) = Csv.read_csv text /\
  Csv.read_csv (text ++ String Csv.newline EmptyString) = Csv.read_csv text.
Proof.
  split.
  - reflexivity.
  - unfold Csv.read_csv. rewrite split_on_snoc, filter_app. simpl.
    rewrite app_nil_r. reflexivity.
Qed.
